(** * Tangem SDK for React Native: the declared contract of [src/types.ts]

    The source file holds type declarations only: string- and number-valued
    enumerations, value interfaces, response records and the method
    signatures of the [TangemSdk] interface.  The development has three
    parts:

    - the value types, as Rocq inductives and records (a JavaScript
      [number] that counts or indexes is an integer [Z], an optional member
      [x?: T] is an [option T], an array [T[]] is a [list T], and the
      one-element tuple type [[T]] is [Tuple1 T]);
    - the declarations themselves as data ([ty], [decl], [types_ts]), so that
      statements quantifying over "every operation" or "every member" can be
      written and computed;
    - the behaviour of the card behind [createWallet], [purgeWallet] and
      [readFiles], which the source does not contain. *)

From Stdlib Require Import List String ZArith Bool Lia FinFun Relations.
Import ListNotations.
Open Scope string_scope.

(** ** Value types *)

(** [enum EllipticCurve] *)
Module EllipticCurve.
Inductive t : Type := Secp256k1 | Ed25519 | Secp256r1.

Definition value (c : t) : string :=
  match c with
  | Secp256k1 => "secp256k1"
  | Ed25519 => "ed25519"
  | Secp256r1 => "secp256r1"
  end.

Definition eqb (a b : t) : bool :=
  match a, b with
  | Secp256k1, Secp256k1 | Ed25519, Ed25519 | Secp256r1, Secp256r1 => true
  | _, _ => false
  end.
End EllipticCurve.

(** [enum SigningMethod] *)
Module SigningMethod.
Inductive t : Type :=
| SignHash
| SignRaw
| SignHashSignedByIssuer
| SignRawSignedByIssuer
| SignHashSignedByIssuerAndUpdateIssuerData
| SignRawSignedByIssuerAndUpdateIssuerData
| SignPos.
End SigningMethod.

(** [enum EncryptionMode] *)
Module EncryptionMode.
Inductive t : Type := None | Fast | Strong.
End EncryptionMode.

(** [enum FirmwareType] *)
Module FirmwareType.
Inductive t : Type := Sdk | Release | Special.
End FirmwareType.

(** [enum FileSettings]: a numeric enumeration, [Private = 0], [Public = 1]. *)
Module FileSettings.
Inductive t : Type := Private | Public.

Definition value (s : t) : Z :=
  match s with Private => 0%Z | Public => 1%Z end.

Definition is_private (s : t) : bool :=
  match s with Private => true | Public => false end.
End FileSettings.

(** [enum FileValidation] *)
Module FileValidation.
Inductive t : Type := NotValidated | Valid | Corrupted.
End FileValidation.

(** [enum Status] *)
Module Status.
Inductive t : Type := Failed | Warning | Skipped | VerifiedOffline | Verified.
End Status.

(** [enum LinkedTerminalStatus] *)
Module LinkedTerminalStatus.
Inductive t : Type := Current | Other | None.
End LinkedTerminalStatus.

(** [type Data = string], [type DerivationPath = string] *)
Definition Data : Type := string.
Definition DerivationPath : Type := string.

(** The tuple type [[T]]: an array with exactly one element. *)
Record Tuple1 (A : Type) : Type := MkTuple1 {
  items : list A;
  items_length : List.length items = 1
}.

Arguments MkTuple1 {A} items items_length.
Arguments items {A} t.
Arguments items_length {A} t.

Definition tuple1 {A : Type} (a : A) : Tuple1 A := MkTuple1 [a] eq_refl.

Module FirmwareVersion.
Record t : Type := mk {
  hotFix : Z;
  major : Z;
  minor : Z;
  type : FirmwareType.t;
  version : string
}.
End FirmwareVersion.

Module WalletSettings.
Record t : Type := mk {
  isPermanent : bool
}.
End WalletSettings.

Module Wallet.
Record t : Type := mk {
  publicKey : Data;
  chainCode : option Data;
  curve : EllipticCurve.t;
  settings : WalletSettings.t;
  totalSignedHashes : option Z;
  remainingSignatures : option Z;
  index : Z
}.
End Wallet.

Module Manufacturer.
Record t : Type := mk {
  name : string;
  manufactureDate : Z;
  signature : option Data
}.
End Manufacturer.

Module Issuer.
Record t : Type := mk {
  name : string;
  publicKey : Data
}.
End Issuer.

Module Settings.
Record t : Type := mk {
  securityDelay : Z;
  maxWalletsCount : Z;
  isSettingAccessCodeAllowed : bool;
  isSettingPasscodeAllowed : bool;
  isRemovingAccessCodeAllowed : bool;
  isLinkedTerminalEnabled : bool;
  supportedEncryptionModes : Tuple1 EncryptionMode.t;
  isPermanentWallet : bool;
  isOverwritingIssuerExtraDataRestricted : bool;
  defaultSigningMethods : option SigningMethod.t;
  defaultCurve : option EllipticCurve.t;
  isIssuerDataProtectedAgainstReplay : bool;
  isSelectBlockchainAllowed : bool
}.
End Settings.

Module Attestation.
Record t : Type := mk {
  cardKeyAttestation : Status.t;
  walletKeysAttestation : Status.t;
  firmwareAttestation : Status.t;
  cardUniquenessAttestation : Status.t
}.
End Attestation.

Module Card.
Record t : Type := mk {
  cardId : string;
  batchId : string;
  cardPublicKey : Data;
  firmwareVersion : FirmwareVersion.t;
  manufacturer : Manufacturer.t;
  issuer : Issuer.t;
  settings : Settings.t;
  linkedTerminalStatus : LinkedTerminalStatus.t;
  isPasscodeSet : option bool;
  supportedCurves : Tuple1 EllipticCurve.t;
  wallets : option (list Wallet.t);
  attestation : Attestation.t;
  health : option Z;
  remainingSignatures : option Z
}.
End Card.

Module NFCStatusResponse.
Record t : Type := mk {
  enabled : bool;
  support : bool
}.
End NFCStatusResponse.

Module Message.
Record t : Type := mk {
  body : option string;
  header : option string
}.
End Message.

Module CreateWalletResponse.
Record t : Type := mk {
  cardId : string;
  wallet : Wallet.t
}.
End CreateWalletResponse.

Module SuccessResponse.
Record t : Type := mk {
  cardId : string
}.
End SuccessResponse.

Module WalletConfig.
Record t : Type := mk {
  isReusable : option bool;
  prohibitPurgeWallet : option bool;
  EllipticCurve : option EllipticCurve.t;
  signingMethods : option SigningMethod.t
}.
End WalletConfig.

Module FileSettingsChange.
Record t : Type := mk {
  fileIndex : Z;
  settings : FileSettings.t
}.
End FileSettingsChange.

Module File.
Record t : Type := mk {
  data : Data;
  startingSignature : option Data;
  finalizingSignature : option Data;
  counter : option Z;
  issuerPublicKey : option Data;
  requiredPasscode : option bool;
  minFirmwareVersion : option FirmwareVersion.t;
  maxFirmwareVersion : option FirmwareVersion.t
}.
End File.

Module ReadFilesResponse.
Record t : Type := mk {
  files : list File.t
}.
End ReadFilesResponse.

(** ** The declarations as data

    A type expression of the source: the primitive types, the wrapper object
    types [String], [Number] and [Boolean], [Date], a string literal type, a
    reference to a declared name, [T[]], a tuple [[T1, ..., Tn]],
    [Promise<T>], an object type literal and a function type.  A member is a
    property, parameter or method with its optionality mark [?]. *)

Record member (T : Type) : Type := Member {
  mname : string;
  moptional : bool;
  mtype : T
}.

Arguments Member {T} mname moptional mtype.
Arguments mname {T} m.
Arguments moptional {T} m.
Arguments mtype {T} m.

#[local] Unset Elimination Schemes.
Inductive ty : Type :=
| TString
| TNumber
| TBoolean
| TVoid
| TStringObject
| TNumberObject
| TBooleanObject
| TDate
| TLiteral (s : string)
| TRef (name : string)
| TArray (elem : ty)
| TTuple (elems : list ty)
| TPromise (result : ty)
| TObject (members : list (member ty))
| TFunction (params : list (member ty)) (result : ty).
#[local] Set Elimination Schemes.

(** An enumeration case carries its string initializer, or none when the
    case is numbered automatically. *)
Inductive decl : Type :=
| Enum (name : string) (cases : list (string * option string))
| Interface (name : string) (members : list (member ty))
| TypeAlias (name : string) (t : ty).

Definition req (n : string) (t : ty) : member ty := Member n false t.
Definition opt (n : string) (t : ty) : member ty := Member n true t.

(** A method signature [m(p1, ..., pn): R] of an interface. *)
Definition method (n : string) (params : list (member ty)) (result : ty)
  : member ty :=
  Member n false (TFunction params result).

Definition enums : list decl :=
  [ Enum "EllipticCurve"
      [ ("Secp256k1", Some "secp256k1");
        ("Ed25519", Some "ed25519");
        ("Secp256r1", Some "secp256r1") ];
    Enum "SigningMethod"
      [ ("SignHash", Some "SignHash");
        ("SignRaw", Some "SignRaw");
        ("SignHashSignedByIssuer", Some "SignHashSignedByIssuer");
        ("SignRawSignedByIssuer", Some "SignRawSignedByIssuer");
        ("SignHashSignedByIssuerAndUpdateIssuerData",
         Some "SignHashSignedByIssuerAndUpdateIssuerData");
        ("SignRawSignedByIssuerAndUpdateIssuerData",
         Some "SignRawSignedByIssuerAndUpdateIssuerData");
        ("SignPos", Some "SignPos") ];
    Enum "EncryptionMode"
      [ ("None", Some "none"); ("Fast", Some "fast"); ("Strong", Some "strong") ];
    Enum "FirmwareType"
      [ ("Sdk", Some "d SDK"); ("Release", Some "r"); ("Special", Some "special") ];
    Enum "FileSettings" [ ("Private", None); ("Public", None) ];
    Enum "FileValidation"
      [ ("NotValidated", Some "notValidated");
        ("Valid", Some "valid");
        ("Corrupted", Some "corrupted") ];
    Enum "Status"
      [ ("Failed", Some "failed");
        ("Warning", Some "warning");
        ("Skipped", Some "skipped");
        ("VerifiedOffline", Some "verifiedOffline");
        ("Verified", Some "verified") ];
    Enum "LinkedTerminalStatus"
      [ ("Current", Some "current"); ("Other", Some "other"); ("None", Some "none") ] ].

Definition value_types : list decl :=
  [ TypeAlias "Data" TString;
    TypeAlias "DerivationPath" TString;
    Interface "FirmwareVersion"
      [ req "hotFix" TNumber;
        req "major" TNumber;
        req "minor" TNumber;
        req "type" (TRef "FirmwareType");
        req "version" TString ];
    Interface "WalletSettings" [ req "isPermanent" TBooleanObject ];
    Interface "Wallet"
      [ req "publicKey" (TRef "Data");
        opt "chainCode" (TRef "Data");
        req "curve" (TRef "EllipticCurve");
        req "settings" (TRef "WalletSettings");
        opt "totalSignedHashes" TNumberObject;
        opt "remainingSignatures" TNumberObject;
        req "index" TNumberObject ];
    Interface "Manufacturer"
      [ req "name" TString;
        req "manufactureDate" TDate;
        opt "signature" (TRef "Data") ];
    Interface "Issuer" [ req "name" TStringObject; req "publicKey" (TRef "Data") ];
    Interface "Settings"
      [ req "securityDelay" TNumber;
        req "maxWalletsCount" TNumber;
        req "isSettingAccessCodeAllowed" TBoolean;
        req "isSettingPasscodeAllowed" TBoolean;
        req "isRemovingAccessCodeAllowed" TBoolean;
        req "isLinkedTerminalEnabled" TBoolean;
        req "supportedEncryptionModes" (TTuple [TRef "EncryptionMode"]);
        req "isPermanentWallet" TBoolean;
        req "isOverwritingIssuerExtraDataRestricted" TBoolean;
        opt "defaultSigningMethods" (TRef "SigningMethod");
        opt "defaultCurve" (TRef "EllipticCurve");
        req "isIssuerDataProtectedAgainstReplay" TBoolean;
        req "isSelectBlockchainAllowed" TBoolean ];
    Interface "Attestation"
      [ req "cardKeyAttestation" (TRef "Status");
        req "walletKeysAttestation" (TRef "Status");
        req "firmwareAttestation" (TRef "Status");
        req "cardUniquenessAttestation" (TRef "Status") ];
    Interface "Card"
      [ req "cardId" TString;
        req "batchId" TString;
        req "cardPublicKey" (TRef "Data");
        req "firmwareVersion" (TRef "FirmwareVersion");
        req "manufacturer" (TRef "Manufacturer");
        req "issuer" (TRef "Issuer");
        req "settings" (TRef "Settings");
        req "linkedTerminalStatus" (TRef "LinkedTerminalStatus");
        opt "isPasscodeSet" TBoolean;
        req "supportedCurves" (TTuple [TRef "EllipticCurve"]);
        opt "wallets" (TArray (TRef "Wallet"));
        req "attestation" (TRef "Attestation");
        opt "health" TNumber;
        opt "remainingSignatures" TNumber ];
    TypeAlias "NFCStatusResponse"
      (TObject [ req "enabled" TBoolean; req "support" TBoolean ]);
    TypeAlias "Events" (TLiteral "NFCStateChange");
    TypeAlias "EventCallback" (TObject [ req "enabled" TBoolean ]);
    Interface "Message" [ opt "body" TString; opt "header" TString ] ].

Definition response_types : list decl :=
  [ Interface "ReadIssuerDataResponse"
      [ req "cardId" TString;
        req "userData" (TRef "Data");
        req "userProtectedData" (TRef "Data");
        req "userCounter" TNumber;
        req "userProtectedCounter" TNumber ];
    Interface "WriteIssuerDataResponse" [ req "cardId" TString ];
    Interface "WriteIssuerExtraDataResponse" [ req "cardId" TString ];
    Interface "WriteUserDataResponse" [ req "cardId" TString ];
    Interface "WriteUserProtectedDataResponse" [ req "cardId" TString ];
    Interface "ReadIssuerExtraDataResponse"
      [ req "cardId" TString; opt "size" TNumber; opt "issuerData" (TRef "Data") ];
    Interface "ReadUserDataResponse"
      [ req "cardId" TString;
        req "userData" (TRef "Data");
        req "userProtectedData" (TRef "Data");
        req "userCounter" TNumber;
        req "userProtectedCounter" TNumber ];
    Interface "CreateWalletResponse"
      [ req "cardId" TString; req "wallet" (TRef "Wallet") ];
    Interface "SuccessResponse" [ req "cardId" TString ];
    Interface "WalletConfig"
      [ opt "isReusable" TBoolean;
        opt "prohibitPurgeWallet" TBoolean;
        opt "EllipticCurve" (TRef "EllipticCurve");
        opt "signingMethods" (TRef "SigningMethod") ];
    Interface "FileSettingsChange"
      [ req "fileIndex" TNumber; req "settings" (TRef "FileSettings") ];
    Interface "File"
      [ req "data" (TRef "Data");
        opt "startingSignature" (TRef "Data");
        opt "finalizingSignature" (TRef "Data");
        opt "counter" TNumber;
        opt "issuerPublicKey" (TRef "Data");
        opt "requiredPasscode" TBoolean;
        opt "minFirmwareVersion" (TRef "FirmwareVersion");
        opt "maxFirmwareVersion" (TRef "FirmwareVersion") ];
    TypeAlias "ReadFilesResponse" (TObject [ req "files" (TArray (TRef "File")) ]);
    Interface "WriteFilesResponse" [ req "cardId" TString; opt "fileIndex" TNumber ];
    Interface "DeleteFilesResponse" [ req "cardId" TString ];
    Interface "ChangeFilesSettingsResponse" [ req "cardId" TString ] ].

Definition handler : ty :=
  TFunction [ req "state" (TRef "EventCallback") ] TVoid.

Definition TangemSdk : decl :=
  Interface "TangemSdk"
    [ method "scanCard" [ opt "initialMessage" (TRef "Message") ]
        (TPromise (TRef "Card"));
      method "sign"
        [ req "hashes" (TArray (TRef "Data"));
          req "walletPublicKey" (TRef "Data");
          req "cardId" TString;
          opt "hdPath" (TRef "DerivationPath");
          opt "initialMessage" (TRef "Message") ]
        (TPromise (TTuple [TRef "Data"]));
      method "readIssuerData"
        [ opt "cardId" TString; opt "initialMessage" (TRef "Message") ]
        (TPromise (TRef "ReadIssuerDataResponse"));
      method "writeIssuerData"
        [ req "issuerData" (TRef "Data");
          req "issuerDataSignature" (TRef "Data");
          opt "issuerDataCounter" TNumber;
          opt "cardId" TString;
          opt "initialMessage" (TRef "Message") ]
        (TPromise (TRef "WriteIssuerDataResponse"));
      method "readIssuerExtraData"
        [ opt "cardId" TString; opt "initialMessage" (TRef "Message") ]
        (TPromise (TRef "ReadIssuerExtraDataResponse"));
      method "writeIssuerExtraData"
        [ req "issuerData" (TRef "Data");
          req "startingSignature" (TRef "Data");
          req "finalizingSignature" (TRef "Data");
          opt "issuerDataCounter" TNumber;
          opt "cardId" TString;
          opt "initialMessage" (TRef "Message") ]
        (TPromise (TRef "WriteIssuerExtraDataResponse"));
      method "readUserData"
        [ opt "cardId" TString; opt "initialMessage" (TRef "Message") ]
        (TPromise (TRef "ReadUserDataResponse"));
      method "writeUserData"
        [ req "userData" (TRef "Data");
          req "userCounter" TNumber;
          opt "cardId" TString;
          opt "initialMessage" (TRef "Message") ]
        (TPromise (TRef "WriteUserDataResponse"));
      method "writeUserProtectedData"
        [ req "userProtectedData" (TRef "Data");
          req "userProtectedCounter" (TRef "Data");
          opt "cardId" TString;
          opt "initialMessage" (TRef "Message") ]
        (TPromise (TRef "WriteUserProtectedDataResponse"));
      method "createWallet"
        [ req "curve" (TRef "EllipticCurve");
          req "isPermanent" TBoolean;
          req "cardId" TString;
          opt "initialMessage" (TRef "Message") ]
        (TPromise (TRef "CreateWalletResponse"));
      method "purgeWallet"
        [ req "walletPublicKey" (TRef "Data");
          req "cardId" TString;
          opt "initialMessage" (TRef "Message") ]
        (TPromise (TRef "SuccessResponse"));
      method "setAccessCode"
        [ req "accessCode" TStringObject;
          req "cardId" TString;
          opt "initialMessage" (TRef "Message") ]
        (TPromise (TRef "SuccessResponse"));
      method "setPasscode"
        [ req "passcode" TStringObject;
          req "cardId" TString;
          opt "initialMessage" (TRef "Message") ]
        (TPromise (TRef "SuccessResponse"));
      method "readFiles"
        [ req "readPrivateFiles" TBoolean;
          opt "indices" (TArray TNumber);
          opt "cardId" TString;
          opt "initialMessage" (TRef "Message") ]
        (TPromise (TRef "ReadFilesResponse"));
      method "writeFiles"
        [ req "files" (TArray (TRef "File"));
          opt "cardId" TString;
          opt "initialMessage" (TRef "Message") ]
        (TPromise (TRef "WriteFilesResponse"));
      method "deleteFiles"
        [ opt "indicesToDelete" (TArray TNumber);
          opt "cardId" TString;
          opt "initialMessage" (TRef "Message") ]
        (TPromise (TRef "DeleteFilesResponse"));
      method "changeFilesSettings"
        [ req "changes" (TRef "FileSettingsChange");
          opt "cardId" TStringObject;
          opt "initialMessage" (TRef "Message") ]
        (TPromise (TRef "ChangeFilesSettingsResponse"));
      method "startSession" [] (TPromise TVoid);
      method "stopSession" [] (TPromise TVoid);
      method "getNFCStatus" [] (TPromise (TRef "NFCStatusResponse"));
      method "on" [ req "eventName" (TRef "Events"); req "handler" handler ] TVoid;
      method "removeListener"
        [ req "eventName" (TRef "Events"); req "handler" handler ]
        TVoid ].

(** The whole file, in source order. *)
Definition types_ts : list decl :=
  enums ++ value_types ++ response_types ++ [ TangemSdk ].

(** *** Reading the declarations *)

Definition decl_name (d : decl) : string :=
  match d with
  | Enum n _ | Interface n _ | TypeAlias n _ => n
  end.

Definition find_decl (n : string) : option decl :=
  find (fun d => String.eqb (decl_name d) n) types_ts.

Definition find_member (n : string) (ms : list (member ty))
  : option (member ty) :=
  find (fun m => String.eqb (mname m) n) ms.

(** The members of an object type: those of an object literal, or of the
    interface or object alias a name refers to. *)
Definition members_of (t : ty) : option (list (member ty)) :=
  match t with
  | TObject ms => Some ms
  | TRef n =>
      match find_decl n with
      | Some (Interface _ ms) => Some ms
      | Some (TypeAlias _ (TObject ms)) => Some ms
      | _ => None
      end
  | _ => None
  end.

(** The operations of the Card Session Client: the methods of [TangemSdk]. *)
Definition operations : list (member ty) :=
  match TangemSdk with
  | Interface _ ms => ms
  | _ => []
  end.

Definition operation (n : string) : option (member ty) :=
  find_member n operations.

Definition op_params (op : member ty) : list (member ty) :=
  match mtype op with
  | TFunction ps _ => ps
  | _ => []
  end.

Definition op_result (op : member ty) : ty :=
  match mtype op with
  | TFunction _ r => r
  | t => t
  end.

(** An operation is asynchronous when it returns a [Promise]. *)
Definition is_async (op : member ty) : bool :=
  match op_result op with
  | TPromise _ => true
  | _ => false
  end.

(** What an operation's result resolves to. *)
Definition awaited (t : ty) : ty :=
  match t with
  | TPromise r => r
  | _ => t
  end.

Definition response (op : member ty) : ty := awaited (op_result op).

(** The response of an operation is a record with a required member [n]. *)
Definition response_includes (n : string) (op : member ty) : bool :=
  match members_of (response op) with
  | Some ms =>
      match find_member n ms with
      | Some m => negb (moptional m)
      | None => false
      end
  | None => false
  end.

(** How an operation declares a parameter. *)
Inductive presence : Type := Absent | Optional | Required.

Definition param_presence (n : string) (op : member ty) : presence :=
  match find_member n (op_params op) with
  | Some p => if moptional p then Optional else Required
  | None => Absent
  end.

Definition name_in (names : list string) (op : member ty) : bool :=
  existsb (String.eqb (mname op)) names.

(** The asynchronous operations whose response has no [cardId] member. *)
Definition responses_without_cardId : list string :=
  [ "sign"; "readFiles"; "startSession"; "stopSession"; "getNFCStatus" ].

(** The operations by the way they declare the [cardId] parameter. *)
Definition cardId_optional : list string :=
  [ "readIssuerData"; "writeIssuerData"; "readIssuerExtraData";
    "writeIssuerExtraData"; "readUserData"; "writeUserData";
    "writeUserProtectedData"; "readFiles"; "writeFiles"; "deleteFiles";
    "changeFilesSettings" ].

Definition cardId_required : list string :=
  [ "sign"; "createWallet"; "purgeWallet"; "setAccessCode"; "setPasscode" ].

Definition cardId_absent : list string :=
  [ "scanCard"; "startSession"; "stopSession"; "getNFCStatus"; "on";
    "removeListener" ].

(** A type expression names the declaration [n]. *)
Fixpoint mentions (n : string) (t : ty) : bool :=
  match t with
  | TRef m => String.eqb m n
  | TArray e => mentions n e
  | TTuple es => existsb (mentions n) es
  | TPromise r => mentions n r
  | TObject ms => existsb (fun m => mentions n (mtype m)) ms
  | TFunction ps r => existsb (fun m => mentions n (mtype m)) ps || mentions n r
  | _ => false
  end.

(** The type a name stands for, when the name is a type alias. *)
Definition resolve (t : ty) : ty :=
  match t with
  | TRef n =>
      match find_decl n with
      | Some (TypeAlias _ t') => t'
      | _ => t
      end
  | _ => t
  end.

(** How many elements a value of the type holds: any number for an array,
    the number of components for a tuple, and one for everything else. *)
Definition capacity (t : ty) : option nat :=
  match resolve t with
  | TArray _ => None
  | TTuple es => Some (List.length es)
  | _ => Some 1
  end.

Definition decl_mentions (n : string) (d : decl) : bool :=
  match d with
  | Enum _ _ => false
  | Interface _ ms => existsb (fun m => mentions n (mtype m)) ms
  | TypeAlias _ t => mentions n t
  end.

(** ** The card behind the operations

    The source declares the operations and does not implement them: they are
    carried out by the card.  The definitions of this part follow the
    specification's description of the card.  They describe a command once it
    has reached the card the call addresses; the failures of the session
    itself (no card, another card, a cancelled interaction) are not part of
    them, and [cardId] and [initialMessage] do not influence the card. *)

(** Why the card refuses a command. *)
Inductive Rejection : Type :=
| CurveNotSupported
| WalletSlotsExhausted
| WalletNotFound
| WalletIsPermanent
| FileIndexOutOfRange.

(** A settled [Promise<T>]: resolved with a value or rejected. *)
Inductive Promise (A : Type) : Type :=
| Resolved (a : A)
| Rejected (reason : Rejection).

Arguments Resolved {A} a.
Arguments Rejected {A} reason.

(** [wallets?: Wallet[]]: an absent member is a card without wallets. *)
Definition card_wallets (c : Card.t) : list Wallet.t :=
  match Card.wallets c with
  | Some ws => ws
  | None => []
  end.

Definition set_wallets (c : Card.t) (ws : list Wallet.t) : Card.t :=
  {| Card.cardId := Card.cardId c;
     Card.batchId := Card.batchId c;
     Card.cardPublicKey := Card.cardPublicKey c;
     Card.firmwareVersion := Card.firmwareVersion c;
     Card.manufacturer := Card.manufacturer c;
     Card.issuer := Card.issuer c;
     Card.settings := Card.settings c;
     Card.linkedTerminalStatus := Card.linkedTerminalStatus c;
     Card.isPasscodeSet := Card.isPasscodeSet c;
     Card.supportedCurves := Card.supportedCurves c;
     Card.wallets := Some ws;
     Card.attestation := Card.attestation c;
     Card.health := Card.health c;
     Card.remainingSignatures := Card.remainingSignatures c |}.

Definition curve_supported (c : Card.t) (curve : EllipticCurve.t) : bool :=
  existsb (EllipticCurve.eqb curve) (items (Card.supportedCurves c)).

(** The card has as many wallets as [settings.maxWalletsCount] allows. *)
Definition slots_exhausted (c : Card.t) : bool :=
  (Settings.maxWalletsCount (Card.settings c)
   <=? Z.of_nat (List.length (card_wallets c)))%Z.

Definition used_indices (c : Card.t) : list Z :=
  map Wallet.index (card_wallets c).

Definition index_free (used : list Z) (i : Z) : bool :=
  negb (existsb (Z.eqb i) used).

(** Modelled from the spec: the index the card gives a new wallet, which the
    source does not contain.  The specification asks that the index is not
    the index of a wallet already on the card, and gives index 0 to the first
    wallet of an empty card; the least index not in use is taken here.  Among
    the first [n + 1] indices one is free when [n] are in use. *)
Definition free_index (used : list Z) : Z :=
  match find (index_free used)
             (map Z.of_nat (seq 0 (S (List.length used)))) with
  | Some i => i
  | None => Z.of_nat (List.length used)
  end.

Section CardCommands.

(** The key pair the card generates for a new wallet: the public key and,
    for the curves that derive keys, the chain code. *)
Variable generateKey : Card.t -> EllipticCurve.t -> Data * option Data.

Definition new_wallet (card : Card.t) (curve : EllipticCurve.t)
  (isPermanent : bool) : Wallet.t :=
  {| Wallet.publicKey := fst (generateKey card curve);
     Wallet.chainCode := snd (generateKey card curve);
     Wallet.curve := curve;
     Wallet.settings := {| WalletSettings.isPermanent := isPermanent |};
     Wallet.totalSignedHashes := Some 0%Z;
     Wallet.remainingSignatures := None;
     Wallet.index := free_index (used_indices card) |}.

(** Modelled from the spec: the card's handling of [createWallet], which the
    source only declares.  The command is rejected if the requested curve is
    absent from [supportedCurves] or the wallet slot count is exhausted;
    otherwise the wallet is created on the card and returned with the id of
    the card.  The result is paired with the card after the command. *)
Definition createWallet (card : Card.t) (curve : EllipticCurve.t)
  (isPermanent : bool) (cardId : string) (initialMessage : option Message.t)
  : Promise CreateWalletResponse.t * Card.t :=
  if negb (curve_supported card curve) then (Rejected CurveNotSupported, card)
  else if slots_exhausted card then (Rejected WalletSlotsExhausted, card)
  else
    let w := new_wallet card curve isPermanent in
    (Resolved {| CreateWalletResponse.cardId := Card.cardId card;
                 CreateWalletResponse.wallet := w |},
     set_wallets card (card_wallets card ++ [w])).

Definition has_key (walletPublicKey : Data) (w : Wallet.t) : bool :=
  String.eqb (Wallet.publicKey w) walletPublicKey.

Definition is_permanent (w : Wallet.t) : bool :=
  WalletSettings.isPermanent (Wallet.settings w).

(** Modelled from the spec: the card's handling of [purgeWallet], which the
    source only declares.  The command addresses the wallets that have the
    given public key.  It is rejected if the [isPermanent] setting of a
    wallet it addresses is true; otherwise the wallets it addresses are
    absent from the card afterwards, and no other wallet is touched. *)
Definition purgeWallet (card : Card.t) (walletPublicKey : Data)
  (cardId : string) (initialMessage : option Message.t)
  : Promise SuccessResponse.t * Card.t :=
  match filter (has_key walletPublicKey) (card_wallets card) with
  | [] => (Rejected WalletNotFound, card)
  | targets =>
      if existsb is_permanent targets
      then (Rejected WalletIsPermanent, card)
      else
        (Resolved {| SuccessResponse.cardId := Card.cardId card |},
         set_wallets card
           (filter (fun w' => negb (has_key walletPublicKey w'))
                   (card_wallets card)))
  end.

(** One wallet command changes the card. *)
Inductive step : Card.t -> Card.t -> Prop :=
| step_createWallet card curve isPermanent cardId initialMessage :
    step card
         (snd (createWallet card curve isPermanent cardId initialMessage))
| step_purgeWallet card walletPublicKey cardId initialMessage :
    step card (snd (purgeWallet card walletPublicKey cardId initialMessage)).

(** The cards that wallet commands produce from a card without wallets. *)
Inductive produced : Card.t -> Prop :=
| produced_blank card : card_wallets card = [] -> produced card
| produced_step card card' : produced card -> step card card' -> produced card'.

End CardCommands.

(** The invariant of the specification's data model. *)
Definition wallet_curves_supported (c : Card.t) : Prop :=
  forall w, In w (card_wallets c) ->
            In (Wallet.curve w) (items (Card.supportedCurves c)).

(** A file as the card stores it: the [File] that is read back, and the
    visibility [changeFilesSettings] gives it.  The position in the store is
    the [fileIndex]. *)
Record StoredFile : Type := {
  content : File.t;
  visibility : FileSettings.t
}.

(** The files a read addresses: all of them, or those at the given indices;
    [None] when an index is out of range. *)
Fixpoint files_at (store : list StoredFile) (indices : list Z)
  : option (list StoredFile) :=
  match indices with
  | [] => Some []
  | i :: rest =>
      if (i <? 0)%Z then None
      else
        match nth_error store (Z.to_nat i), files_at store rest with
        | Some f, Some fs => Some (f :: fs)
        | _, _ => None
        end
  end.

Definition addressed (store : list StoredFile) (indices : option (list Z))
  : option (list StoredFile) :=
  match indices with
  | None => Some store
  | Some l => files_at store l
  end.

Definition readable (readPrivateFiles : bool) (f : StoredFile) : bool :=
  readPrivateFiles || negb (FileSettings.is_private (visibility f)).

(** Modelled from the spec: the card's handling of [readFiles], which the
    source only declares.  With [readPrivateFiles = false] the files whose
    settings are Private are excluded; an index list restricts the read to
    those indices and the read fails if an index is out of range. *)
Definition readFiles (store : list StoredFile) (readPrivateFiles : bool)
  (indices : option (list Z)) (cardId : option string)
  (initialMessage : option Message.t) : Promise ReadFilesResponse.t :=
  match addressed store indices with
  | None => Rejected FileIndexOutOfRange
  | Some fs =>
      Resolved {| ReadFilesResponse.files :=
                    map content (filter (readable readPrivateFiles) fs) |}
  end.

(** ** Sample values *)

Definition sample_firmware : FirmwareVersion.t :=
  {| FirmwareVersion.hotFix := 0%Z;
     FirmwareVersion.major := 4%Z;
     FirmwareVersion.minor := 12%Z;
     FirmwareVersion.type := FirmwareType.Release;
     FirmwareVersion.version := "4.12r" |}.

Definition sample_settings : Settings.t :=
  {| Settings.securityDelay := 3000%Z;
     Settings.maxWalletsCount := 2%Z;
     Settings.isSettingAccessCodeAllowed := true;
     Settings.isSettingPasscodeAllowed := true;
     Settings.isRemovingAccessCodeAllowed := false;
     Settings.isLinkedTerminalEnabled := false;
     Settings.supportedEncryptionModes := tuple1 EncryptionMode.Strong;
     Settings.isPermanentWallet := false;
     Settings.isOverwritingIssuerExtraDataRestricted := false;
     Settings.defaultSigningMethods := Some SigningMethod.SignHash;
     Settings.defaultCurve := Some EllipticCurve.Secp256k1;
     Settings.isIssuerDataProtectedAgainstReplay := true;
     Settings.isSelectBlockchainAllowed := false |}.

Definition sample_attestation : Attestation.t :=
  {| Attestation.cardKeyAttestation := Status.Verified;
     Attestation.walletKeysAttestation := Status.Verified;
     Attestation.firmwareAttestation := Status.Skipped;
     Attestation.cardUniquenessAttestation := Status.Skipped |}.

(** A card that supports [Secp256k1] and holds the given wallets. *)
Definition sample_card (ws : option (list Wallet.t)) : Card.t :=
  {| Card.cardId := "CB79000000018201";
     Card.batchId := "0079";
     Card.cardPublicKey := "04A1";
     Card.firmwareVersion := sample_firmware;
     Card.manufacturer :=
       {| Manufacturer.name := "TANGEM";
          Manufacturer.manufactureDate := 1600000000000%Z;
          Manufacturer.signature := None |};
     Card.issuer := {| Issuer.name := "TANGEM SDK"; Issuer.publicKey := "0456" |};
     Card.settings := sample_settings;
     Card.linkedTerminalStatus := LinkedTerminalStatus.None;
     Card.isPasscodeSet := Some false;
     Card.supportedCurves := tuple1 EllipticCurve.Secp256k1;
     Card.wallets := ws;
     Card.attestation := sample_attestation;
     Card.health := None;
     Card.remainingSignatures := None |}.

Definition blank_card : Card.t := sample_card None.

Definition sample_generateKey (c : Card.t) (curve : EllipticCurve.t)
  : Data * option Data :=
  ("02C7", Some "9F31").

Definition sample_file (d : Data) : File.t :=
  {| File.data := d;
     File.startingSignature := None;
     File.finalizingSignature := None;
     File.counter := Some 1%Z;
     File.issuerPublicKey := None;
     File.requiredPasscode := None;
     File.minFirmwareVersion := None;
     File.maxFirmwareVersion := None |}.

Definition sample_store : list StoredFile :=
  [ {| content := sample_file "AA"; visibility := FileSettings.Private |};
    {| content := sample_file "BB"; visibility := FileSettings.Public |} ].

(** ** The structure of the declarations

    Definitions that read the file as a whole: the names a declaration
    refers to, what the interface [TangemSdk] reaches through them, the
    member lists of a declaration, the values of an enumeration and the
    parameters a call may leave out. *)

(** The names a type expression refers to. *)
Fixpoint refs (t : ty) : list string :=
  match t with
  | TRef n => [n]
  | TArray e => refs e
  | TTuple es => flat_map refs es
  | TPromise r => refs r
  | TObject ms => flat_map (fun m => refs (mtype m)) ms
  | TFunction ps r => flat_map (fun m => refs (mtype m)) ps ++ refs r
  | _ => []
  end.

Definition decl_refs (d : decl) : list string :=
  match d with
  | Enum _ _ => []
  | Interface _ ms => flat_map (fun m => refs (mtype m)) ms
  | TypeAlias _ t => refs t
  end.

(** The names the declaration called [n] refers to. *)
Definition refs_of (n : string) : list string :=
  match find_decl n with
  | Some d => decl_refs d
  | None => []
  end.

(** The declaration called [n] refers to the name [m]. *)
Definition refers (n m : string) : Prop := In m (refs_of n).

Definition mem (n : string) (l : list string) : bool :=
  existsb (String.eqb n) l.

(** The list without its repeated names. *)
Fixpoint dedupe (l : list string) : list string :=
  match l with
  | [] => []
  | n :: rest => if mem n rest then dedupe rest else n :: dedupe rest
  end.

(** The type names of the language that the file uses and does not
    declare: the wrapper object types, [Date] and [Promise]. *)
Definition global_types : list string :=
  [ "String"; "Number"; "Boolean"; "Date"; "Promise" ].

(** Every type name written in a type expression: the names [refs] gives
    and the global ones.  The keywords [string], [number], [boolean] and
    [void] and the string literal types are not names. *)
Fixpoint type_names (t : ty) : list string :=
  match t with
  | TStringObject => [ "String" ]
  | TNumberObject => [ "Number" ]
  | TBooleanObject => [ "Boolean" ]
  | TDate => [ "Date" ]
  | TRef n => [ n ]
  | TArray e => type_names e
  | TTuple es => flat_map type_names es
  | TPromise r => "Promise" :: type_names r
  | TObject ms => flat_map (fun m => type_names (mtype m)) ms
  | TFunction ps r =>
      flat_map (fun m => type_names (mtype m)) ps ++ type_names r
  | _ => []
  end.

Definition decl_type_names (d : decl) : list string :=
  match d with
  | Enum _ _ => []
  | Interface _ ms => flat_map (fun m => type_names (mtype m)) ms
  | TypeAlias _ t => type_names t
  end.

(** The name is declared in the file, or it is a global type and the file
    does not declare it. *)
Definition declared_or_global (n : string) : bool :=
  match find_decl n with
  | Some _ => true
  | None => mem n global_types
  end.

Definition names_accounted (d : decl) : bool :=
  forallb declared_or_global (decl_type_names d).

(** One round of following references from the names seen so far. *)
Definition expand (seen : list string) : list string :=
  dedupe (seen ++ flat_map refs_of seen).

(** The names reached from [start]: as many rounds as the file has
    declarations. *)
Definition closure (start : list string) : list string :=
  Nat.iter (List.length types_ts) expand start.

(** Every name a member of [c] refers to is in [c]. *)
Definition closed (c : list string) : bool :=
  forallb (fun a => forallb (fun b => mem b c) (refs_of a)) c.

(** The declared types that no operation carries. *)
Definition unused_types : list string := [ "WalletConfig"; "FileValidation" ].

(** No name occurs twice. *)
Fixpoint distinct (l : list string) : bool :=
  match l with
  | [] => true
  | n :: rest => negb (mem n rest) && distinct rest
  end.

(** The member lists written in a type expression: those of object types
    and the parameter lists of function types, at any depth. *)
Fixpoint member_lists (t : ty) : list (list (member ty)) :=
  match t with
  | TArray e => member_lists e
  | TTuple es => flat_map member_lists es
  | TPromise r => member_lists r
  | TObject ms => ms :: flat_map (fun m => member_lists (mtype m)) ms
  | TFunction ps r =>
      ps :: flat_map (fun m => member_lists (mtype m)) ps ++ member_lists r
  | _ => []
  end.

Definition decl_member_lists (d : decl) : list (list (member ty)) :=
  match d with
  | Enum _ _ => []
  | Interface _ ms => ms :: flat_map (fun m => member_lists (mtype m)) ms
  | TypeAlias _ t => member_lists t
  end.

(** The value of an enumeration case at run time: its string initializer,
    or its number when it has none; numbering starts at 0 and goes up by
    one. *)
Inductive enum_value : Type :=
| StringValue (s : string)
| NumberValue (n : nat).

Fixpoint case_values (next : nat) (cases : list (string * option string))
  : list enum_value :=
  match cases with
  | [] => []
  | (_, Some s) :: rest => StringValue s :: case_values next rest
  | (_, None) :: rest => NumberValue next :: case_values (S next) rest
  end.

Definition enum_value_eqb (a b : enum_value) : bool :=
  match a, b with
  | StringValue s, StringValue s' => String.eqb s s'
  | NumberValue n, NumberValue n' => Nat.eqb n n'
  | _, _ => false
  end.

Fixpoint distinct_values (l : list enum_value) : bool :=
  match l with
  | [] => true
  | v :: rest => negb (existsb (enum_value_eqb v) rest) && distinct_values rest
  end.

(** The values of the enumeration called [n]. *)
Definition values_of (n : string) : list enum_value :=
  match find_decl n with
  | Some (Enum _ cases) => case_values 0 cases
  | _ => []
  end.

(** The number of parameters a call has to supply. *)
Definition required_count (ps : list (member ty)) : nat :=
  List.length (filter (fun p => negb (moptional p)) ps).

(** No required member follows an optional one. *)
Fixpoint required_first (ps : list (member ty)) : bool :=
  match ps with
  | [] => true
  | p :: rest =>
      if moptional p then forallb (fun q => moptional q) rest
      else required_first rest
  end.

(** The operations without an [initialMessage] parameter. *)
Definition message_absent : list string :=
  [ "startSession"; "stopSession"; "getNFCStatus"; "on"; "removeListener" ].

(** The operations that subscribe to events. *)
Definition listeners : list string := [ "on"; "removeListener" ].

Definition initialMessage_param : member ty :=
  opt "initialMessage" (TRef "Message").

(** The cases of an enumeration with their values. *)
Definition valued_cases (cases : list (string * option string))
  : list (string * enum_value) :=
  combine (map fst cases) (case_values 0 cases).

Definition enum_cases_distinct (d : decl) : bool :=
  match d with
  | Enum _ cases =>
      distinct (map fst (valued_cases cases))
      && distinct_values (map snd (valued_cases cases))
  | _ => true
  end.

(** A value of type [s] may be given where type [d] is expected, as far as
    the types of members and parameters go: a type is assignable to itself,
    a primitive to its wrapper object type, and an array to an array of an
    assignable element type; optionality is left aside. *)
Fixpoint assignable_shape (s d : ty) : bool :=
  match s, d with
  | TString, TString | TString, TStringObject => true
  | TStringObject, TStringObject => true
  | TNumber, TNumber | TNumber, TNumberObject => true
  | TNumberObject, TNumberObject => true
  | TBoolean, TBoolean | TBoolean, TBooleanObject => true
  | TBooleanObject, TBooleanObject => true
  | TDate, TDate => true
  | TRef a, TRef b => String.eqb a b
  | TArray a, TArray b => assignable_shape a b
  | _, _ => false
  end.

(** Assignability, with a type alias standing for its type. *)
Definition assignable (s d : ty) : bool :=
  assignable_shape (resolve s) (resolve d).

(** A member [m] of a response and a parameter [p] of the same name agree:
    the member can be passed as the parameter, except for the one name
    [userProtectedCounter]. *)
Definition passes_on (m p : member ty) : bool :=
  if String.eqb (mname m) (mname p)
  then Bool.eqb (assignable (mtype m) (mtype p))
                (negb (String.eqb (mname m) "userProtectedCounter"))
  else true.

(** The members of the response of an operation; none when the response is
    not a record. *)
Definition response_members (op : member ty) : list (member ty) :=
  match members_of (response op) with
  | Some ms => ms
  | None => []
  end.

Definition responses_pass_on (op1 : member ty) : bool :=
  forallb (fun op2 =>
    forallb (fun m => forallb (passes_on m) (op_params op2))
            (response_members op1))
    operations.

(** ** Properties of the declarations *)

Lemma EllipticCurve_eqb_spec (a b : EllipticCurve.t) :
  reflect (a = b) (EllipticCurve.eqb a b).
Proof. destruct a, b; simpl; constructor; congruence. Qed.

Lemma tuple1_single (A : Type) (t : Tuple1 A) : exists a, items t = [a].
Proof.
  destruct t as [l Hl]; simpl.
  destruct l as [| a [| b l]]; simpl in Hl; try discriminate.
  now exists a.
Qed.

(** A property that computes to [true] on the list of operations holds of
    each of them. *)
Lemma for_each_operation (P : member ty -> bool) :
  forallb P operations = true ->
  forall op, In op operations -> P op = true.
Proof. intros H op Hop. now apply (proj1 (forallb_forall P operations) H). Qed.

Lemma operation_In (n : string) (op : member ty) :
  operation n = Some op -> In op operations /\ mname op = n.
Proof.
  unfold operation, find_member. intros H.
  apply find_some in H. destruct H as [Hin Heq].
  split; [exact Hin | now apply String.eqb_eq].
Qed.

Ltac each_operation H :=
  cbv [operations TangemSdk In] in H;
  repeat (destruct H as [H | H]; [subst | ]); [ .. | contradiction ].

(** *** Responses and [cardId] *)

(** C1, as the claim states it, fails at [readFiles]: the operation is
    asynchronous and its response [ReadFilesResponse] is declared with the
    single member [files]. *)
Lemma readFiles_response_lacks_cardId :
  exists op,
    operation "readFiles" = Some op /\
    is_async op = true /\
    response op = TRef "ReadFilesResponse" /\
    members_of (response op) = Some [ req "files" (TArray (TRef "File")) ] /\
    response_includes "cardId" op = false.
Proof.
  eexists. split; [ reflexivity | ]. repeat split.
Qed.

(** C1, amended: an asynchronous operation declares a response record with a
    required [cardId] member exactly when it is not one of [sign],
    [readFiles], [startSession], [stopSession] and [getNFCStatus]. *)
Theorem response_cardId_except_five :
  forall op,
    In op operations ->
    is_async op = true ->
    response_includes "cardId" op = negb (name_in responses_without_cardId op).
Proof.
  intros op Hop Hasync.
  pose (P := fun o : member ty =>
    implb (is_async o)
      (Bool.eqb (response_includes "cardId" o)
                (negb (name_in responses_without_cardId o)))).
  assert (HP : P op = true) by (apply for_each_operation; [ reflexivity | exact Hop ]).
  unfold P in HP. rewrite Hasync in HP. simpl in HP.
  now apply Bool.eqb_prop.
Qed.

(** [createWallet] is asynchronous and its response carries [cardId]. *)
Lemma response_cardId_except_five_witness :
  exists op,
    operation "createWallet" = Some op /\
    is_async op = true /\
    response_includes "cardId" op = true.
Proof.
  exists (method "createWallet"
            [ req "curve" (TRef "EllipticCurve");
              req "isPermanent" TBoolean;
              req "cardId" TString;
              opt "initialMessage" (TRef "Message") ]
            (TPromise (TRef "CreateWalletResponse"))).
  split; [ reflexivity | ]. split; [ reflexivity | ].
  apply response_cardId_except_five.
  - apply (proj1 (operation_In "createWallet" _ eq_refl)).
  - reflexivity.
Defined.

(** *** The [cardId] parameter *)

(** C6, as the claim states it, fails at [createWallet]: its [cardId]
    parameter is declared without the optionality mark. *)
Lemma createWallet_cardId_is_required :
  exists op,
    operation "createWallet" = Some op /\
    find_member "cardId" (op_params op) = Some (req "cardId" TString) /\
    param_presence "cardId" op = Required.
Proof. eexists. split; [ reflexivity | ]. split; reflexivity. Qed.

(** C6, amended: the [cardId] parameter is optional in the eleven operations
    of [cardId_optional], required in [sign], [createWallet], [purgeWallet],
    [setAccessCode] and [setPasscode], and not a parameter of [scanCard],
    [startSession], [stopSession], [getNFCStatus], [on] and
    [removeListener]. *)
Theorem cardId_parameter_presence :
  forall op,
    In op operations ->
    (name_in cardId_optional op = true /\ param_presence "cardId" op = Optional) \/
    (name_in cardId_required op = true /\ param_presence "cardId" op = Required) \/
    (name_in cardId_absent op = true /\ param_presence "cardId" op = Absent).
Proof.
  intros op Hop. each_operation Hop;
    first [ left; split; reflexivity
          | right; left; split; reflexivity
          | right; right; split; reflexivity ].
Qed.

(** [readFiles] is one of the operations with an optional [cardId]. *)
Lemma cardId_parameter_presence_witness :
  exists op,
    operation "readFiles" = Some op /\
    ((name_in cardId_optional op = true /\ param_presence "cardId" op = Optional) \/
     (name_in cardId_required op = true /\ param_presence "cardId" op = Required) \/
     (name_in cardId_absent op = true /\ param_presence "cardId" op = Absent)).
Proof.
  exists (method "readFiles"
            [ req "readPrivateFiles" TBoolean;
              opt "indices" (TArray TNumber);
              opt "cardId" TString;
              opt "initialMessage" (TRef "Message") ]
            (TPromise (TRef "ReadFilesResponse"))).
  split; [ reflexivity | ].
  apply cardId_parameter_presence.
  apply (proj1 (operation_In "readFiles" _ eq_refl)).
Defined.

(** *** [getNFCStatus] *)

(** C7, as the claim states it, fails: [getNFCStatus] is declared to return
    a [Promise], so the snapshot is delivered asynchronously. *)
Lemma getNFCStatus_is_async :
  exists op,
    operation "getNFCStatus" = Some op /\
    op_result op = TPromise (TRef "NFCStatusResponse") /\
    is_async op = true.
Proof. eexists. split; [ reflexivity | ]. split; reflexivity. Qed.

(** C7, amended: [getNFCStatus] takes no parameter and returns a promise
    that resolves to a record of exactly the two boolean members [enabled]
    and [support]. *)
Theorem getNFCStatus_resolves_to_flags :
  exists op,
    operation "getNFCStatus" = Some op /\
    op_params op = [] /\
    is_async op = true /\
    members_of (response op)
    = Some [ req "enabled" TBoolean; req "support" TBoolean ].
Proof. eexists. split; [ reflexivity | ]. repeat split. Qed.

(** *** [WalletConfig] and [createWallet] *)

(** C3, as the claim states it, fails: no parameter of [createWallet] names
    [WalletConfig]. *)
Lemma createWallet_takes_no_WalletConfig :
  exists op,
    operation "createWallet" = Some op /\
    existsb (fun p => mentions "WalletConfig" (mtype p)) (op_params op) = false.
Proof. eexists. split; reflexivity. Qed.

(** C3, amended: [createWallet] takes the curve, the [isPermanent] flag, the
    card id and an optional message; the [WalletConfig] record, with its four
    optional members, is declared and no other declaration of the file,
    [TangemSdk] included, names it. *)
Theorem WalletConfig_declared_and_unused :
  (exists op,
     operation "createWallet" = Some op /\
     op_params op
     = [ req "curve" (TRef "EllipticCurve");
         req "isPermanent" TBoolean;
         req "cardId" TString;
         opt "initialMessage" (TRef "Message") ]) /\
  members_of (TRef "WalletConfig")
  = Some [ opt "isReusable" TBoolean;
           opt "prohibitPurgeWallet" TBoolean;
           opt "EllipticCurve" (TRef "EllipticCurve");
           opt "signingMethods" (TRef "SigningMethod") ] /\
  forall d, In d types_ts -> decl_mentions "WalletConfig" d = false.
Proof.
  split; [ eexists; split; reflexivity | ].
  split; [ reflexivity | ].
  intros d Hd.
  assert (H : forallb (fun d => negb (decl_mentions "WalletConfig" d)) types_ts = true)
    by reflexivity.
  rewrite forallb_forall in H. apply negb_true_iff. now apply H.
Qed.

(** The interface [TangemSdk] is one of the declarations that do not name
    [WalletConfig]. *)
Lemma WalletConfig_declared_and_unused_witness :
  In TangemSdk types_ts /\ decl_mentions "WalletConfig" TangemSdk = false.
Proof.
  assert (Hin : In TangemSdk types_ts).
  { unfold types_ts. apply in_or_app. right. apply in_or_app. right.
    apply in_or_app. right. left. reflexivity. }
  split; [ exact Hin | ].
  exact (proj2 (proj2 WalletConfig_declared_and_unused) TangemSdk Hin).
Defined.

(** *** [changeFilesSettings] *)

(** C10: the [changes] parameter of [changeFilesSettings] is required and is
    one [FileSettingsChange] record, which names one [fileIndex] and one
    [FileSettings] value; it is neither an array nor a tuple, unlike the
    [files] parameter of [writeFiles]. *)
Theorem changeFilesSettings_takes_one_change :
  (exists op,
     operation "changeFilesSettings" = Some op /\
     find_member "changes" (op_params op)
     = Some (req "changes" (TRef "FileSettingsChange"))) /\
  capacity (TRef "FileSettingsChange") = Some 1 /\
  members_of (TRef "FileSettingsChange")
  = Some [ req "fileIndex" TNumber; req "settings" (TRef "FileSettings") ] /\
  capacity TNumber = Some 1 /\
  capacity (TRef "FileSettings") = Some 1 /\
  capacity (TArray (TRef "File")) = None.
Proof.
  split; [ eexists; split; reflexivity | ].
  repeat split.
Qed.

(** *** One-element tuples *)

(** C9: a [Card] holds exactly one curve in [supportedCurves] and a
    [Settings] exactly one mode in [supportedEncryptionModes]; both members
    are declared with a tuple type of one component. *)
Theorem supported_lists_hold_one_element :
  (forall c : Card.t, exists curve, items (Card.supportedCurves c) = [curve]) /\
  (forall s : Settings.t,
     exists mode, items (Settings.supportedEncryptionModes s) = [mode]) /\
  (exists ms,
     members_of (TRef "Card") = Some ms /\
     find_member "supportedCurves" ms
     = Some (req "supportedCurves" (TTuple [TRef "EllipticCurve"]))) /\
  (exists ms,
     members_of (TRef "Settings") = Some ms /\
     find_member "supportedEncryptionModes" ms
     = Some (req "supportedEncryptionModes" (TTuple [TRef "EncryptionMode"]))) /\
  capacity (TTuple [TRef "EllipticCurve"]) = Some 1 /\
  capacity (TTuple [TRef "EncryptionMode"]) = Some 1.
Proof.
  split; [ intros c; apply tuple1_single | ].
  split; [ intros s; apply tuple1_single | ].
  split; [ eexists; split; reflexivity | ].
  split; [ eexists; split; reflexivity | ].
  split; reflexivity.
Qed.

(** *** [sign] *)

(** C2 at the two hashes ["0A"; "0B"]: [sign] takes an array of hashes and
    is declared to resolve to a tuple of one [Data], so a result of the
    declared type holds one signature, not two. *)
Theorem sign_resolves_to_one_signature :
  (exists op,
     operation "sign" = Some op /\
     find_member "hashes" (op_params op)
     = Some (req "hashes" (TArray (TRef "Data"))) /\
     response op = TTuple [TRef "Data"] /\
     capacity (response op) = Some 1) /\
  forall signatures : Tuple1 Data,
    List.length (items signatures) = 1 /\
    List.length (items signatures) <> List.length ["0A"; "0B"].
Proof.
  split; [ eexists; split; [ reflexivity | repeat split ] | ].
  intros signatures. rewrite (items_length signatures).
  split; [ reflexivity | discriminate ].
Qed.

(** ** Properties of the card *)

Lemma curve_supported_In (c : Card.t) (curve : EllipticCurve.t) :
  curve_supported c curve = true <-> In curve (items (Card.supportedCurves c)).
Proof.
  unfold curve_supported. rewrite existsb_exists. split.
  - intros [x [Hin Heq]].
    destruct (EllipticCurve_eqb_spec curve x) as [-> | ]; [ exact Hin | discriminate ].
  - intros Hin. exists curve. split; [ exact Hin | ].
    now destruct (EllipticCurve_eqb_spec curve curve).
Qed.

Lemma slots_exhausted_le (c : Card.t) :
  slots_exhausted c = true <->
  (Settings.maxWalletsCount (Card.settings c)
   <= Z.of_nat (List.length (card_wallets c)))%Z.
Proof. unfold slots_exhausted. apply Z.leb_le. Qed.

Lemma index_free_not_In (used : list Z) (i : Z) :
  index_free used i = true -> ~ In i used.
Proof.
  unfold index_free. intros H Hin.
  apply negb_true_iff in H.
  assert (Hex : existsb (Z.eqb i) used = true).
  { apply existsb_exists. exists i. split; [ exact Hin | apply Z.eqb_refl ]. }
  congruence.
Qed.

Lemma index_taken_In (used : list Z) (i : Z) :
  index_free used i = false -> In i used.
Proof.
  unfold index_free. intros H.
  apply negb_false_iff in H. apply existsb_exists in H.
  destruct H as [x [Hin Heq]]. apply Z.eqb_eq in Heq. now subst.
Qed.

Lemma first_indices_NoDup (n : nat) : NoDup (map Z.of_nat (seq 0 n)).
Proof.
  apply Injective_map_NoDup; [ | apply seq_NoDup ].
  intros x y Hxy. now apply Nat2Z.inj.
Qed.

(** The index the card picks is in use by no wallet: were every one of the
    first [n + 1] indices in use, [n] indices would cover [n + 1] distinct
    ones. *)
Lemma free_index_fresh (used : list Z) : ~ In (free_index used) used.
Proof.
  unfold free_index.
  destruct (find (index_free used) (map Z.of_nat (seq 0 (S (List.length used)))))
    as [i | ] eqn:Hfind.
  - apply find_some in Hfind. now apply index_free_not_In.
  - exfalso.
    assert (Hincl : incl (map Z.of_nat (seq 0 (S (List.length used)))) used).
    { intros x Hx. apply index_taken_In. exact (find_none _ _ Hfind x Hx). }
    pose proof (NoDup_incl_length (first_indices_NoDup _) Hincl) as Hlen.
    rewrite length_map, length_seq in Hlen. lia.
Qed.

Lemma free_index_empty : free_index [] = 0%Z.
Proof. reflexivity. Qed.

(** C4: [createWallet] is rejected whenever the curve is not among the
    card's [supportedCurves] or the card already holds [maxWalletsCount]
    wallets; otherwise it resolves, and the wallet it returns uses the
    requested curve and an index that no wallet already on the card has. *)
Theorem createWallet_rejects_or_creates :
  forall generateKey card curve isPermanent cardId initialMessage,
    (~ In curve (items (Card.supportedCurves card)) \/
     (Settings.maxWalletsCount (Card.settings card)
      <= Z.of_nat (List.length (card_wallets card)))%Z ->
     exists reason,
       fst (createWallet generateKey card curve isPermanent cardId initialMessage)
       = Rejected reason) /\
    (In curve (items (Card.supportedCurves card)) ->
     (Z.of_nat (List.length (card_wallets card))
      < Settings.maxWalletsCount (Card.settings card))%Z ->
     exists r,
       fst (createWallet generateKey card curve isPermanent cardId initialMessage)
       = Resolved r /\
       Wallet.curve (CreateWalletResponse.wallet r) = curve /\
       forall w, In w (card_wallets card) ->
                 Wallet.index w <> Wallet.index (CreateWalletResponse.wallet r)).
Proof.
  intros generateKey card curve isPermanent cardId initialMessage.
  unfold createWallet.
  destruct (curve_supported card curve) eqn:Hcurve;
    destruct (slots_exhausted card) eqn:Hslots; simpl.
  - split.
    + intros _. now exists WalletSlotsExhausted.
    + intros _ Hlt. apply slots_exhausted_le in Hslots. lia.
  - split.
    + intros [Hnot | Hle].
      * apply curve_supported_In in Hcurve. contradiction.
      * apply slots_exhausted_le in Hle. congruence.
    + intros _ _. eexists. split; [ reflexivity | ]. split; [ reflexivity | ].
      simpl. intros w Hw Heq.
      apply (free_index_fresh (used_indices card)).
      rewrite <- Heq. unfold used_indices. now apply in_map.
  - split.
    + intros _. now exists CurveNotSupported.
    + intros Hin _. apply curve_supported_In in Hin. congruence.
  - split.
    + intros _. now exists CurveNotSupported.
    + intros Hin _. apply curve_supported_In in Hin. congruence.
Qed.

(** On the blank sample card an [Ed25519] wallet is refused and a
    [Secp256k1] wallet is created. *)
Lemma createWallet_rejects_or_creates_witness :
  (exists reason,
     fst (createWallet sample_generateKey blank_card EllipticCurve.Ed25519
            false "CB79000000018201" None)
     = Rejected reason) /\
  (exists r,
     fst (createWallet sample_generateKey blank_card EllipticCurve.Secp256k1
            false "CB79000000018201" None)
     = Resolved r /\
     Wallet.curve (CreateWalletResponse.wallet r) = EllipticCurve.Secp256k1 /\
     forall w, In w (card_wallets blank_card) ->
               Wallet.index w <> Wallet.index (CreateWalletResponse.wallet r)).
Proof.
  split.
  - apply (proj1 (createWallet_rejects_or_creates sample_generateKey blank_card
                    EllipticCurve.Ed25519 false "CB79000000018201" None)).
    left. simpl. intros [H | H]; [ discriminate H | exact H ].
  - apply (proj2 (createWallet_rejects_or_creates sample_generateKey blank_card
                    EllipticCurve.Secp256k1 false "CB79000000018201" None)).
    + simpl. left. reflexivity.
    + simpl. lia.
Defined.

(** The specification's scenario: on a card that supports [Secp256k1] and
    has no wallet, creating an [Ed25519] wallet is rejected, creating a
    [Secp256k1] wallet returns the wallet of index 0, the card then holds
    exactly that wallet, and purging it leaves the card without wallets. *)
Example createWallet_scenario :
  let cid := "CB79000000018201" in
  let created :=
    createWallet sample_generateKey blank_card EllipticCurve.Secp256k1 false cid None in
  fst (createWallet sample_generateKey blank_card EllipticCurve.Ed25519 false cid None)
  = Rejected CurveNotSupported /\
  (exists r,
     fst created = Resolved r /\
     Wallet.index (CreateWalletResponse.wallet r) = 0%Z /\
     Wallet.curve (CreateWalletResponse.wallet r) = EllipticCurve.Secp256k1 /\
     card_wallets (snd created) = [CreateWalletResponse.wallet r]) /\
  card_wallets (snd (purgeWallet (snd created) "02C7" cid None)) = [].
Proof.
  simpl. split; [ reflexivity | ]. split; [ | reflexivity ].
  eexists. split; [ reflexivity | ]. repeat split.
Qed.

(** *** Wallet curves *)

Lemma card_wallets_set_wallets (c : Card.t) (ws : list Wallet.t) :
  card_wallets (set_wallets c ws) = ws.
Proof. reflexivity. Qed.

Lemma supportedCurves_set_wallets (c : Card.t) (ws : list Wallet.t) :
  Card.supportedCurves (set_wallets c ws) = Card.supportedCurves c.
Proof. reflexivity. Qed.

Lemma createWallet_keeps_curves_supported generateKey card curve isPermanent
  cardId initialMessage :
  wallet_curves_supported card ->
  wallet_curves_supported
    (snd (createWallet generateKey card curve isPermanent cardId initialMessage)).
Proof.
  intros Hinv. unfold createWallet.
  destruct (curve_supported card curve) eqn:Hcurve; simpl; [ | exact Hinv ].
  destruct (slots_exhausted card); simpl; [ exact Hinv | ].
  intros w Hw.
  rewrite card_wallets_set_wallets in Hw.
  rewrite supportedCurves_set_wallets.
  apply in_app_or in Hw. destruct Hw as [Hold | [<- | []]].
  - now apply Hinv.
  - simpl. now apply curve_supported_In.
Qed.

Lemma purgeWallet_keeps_curves_supported card walletPublicKey cardId
  initialMessage :
  wallet_curves_supported card ->
  wallet_curves_supported
    (snd (purgeWallet card walletPublicKey cardId initialMessage)).
Proof.
  intros Hinv. unfold purgeWallet.
  destruct (filter (has_key walletPublicKey) (card_wallets card)) as [| t ts];
    [ exact Hinv | ].
  destruct (existsb is_permanent (t :: ts)); [ exact Hinv | ].
  simpl. intros w Hw.
  rewrite card_wallets_set_wallets in Hw.
  rewrite supportedCurves_set_wallets.
  apply filter_In in Hw. now apply Hinv.
Qed.

(** [purgeWallet] never erases a permanent wallet: a wallet whose
    [isPermanent] setting is true is on the card after the command as it
    was before, whatever key the command names. *)
Lemma purgeWallet_keeps_permanent card walletPublicKey cardId initialMessage :
  forall w,
    In w (card_wallets card) ->
    is_permanent w = true ->
    In w (card_wallets
            (snd (purgeWallet card walletPublicKey cardId initialMessage))).
Proof.
  intros w Hw Hperm. unfold purgeWallet.
  destruct (filter (has_key walletPublicKey) (card_wallets card))
    as [| t ts] eqn:Htargets; [ exact Hw | ].
  destruct (existsb is_permanent (t :: ts)) eqn:Hany; [ exact Hw | ].
  simpl. apply filter_In. split; [ exact Hw | ].
  destruct (has_key walletPublicKey w) eqn:Hkey; [ | reflexivity ].
  exfalso.
  assert (Hin : In w (t :: ts))
    by (rewrite <- Htargets; apply filter_In; split; assumption).
  assert (Hex : existsb is_permanent (t :: ts) = true)
    by (apply existsb_exists; exists w; split; assumption).
  rewrite Hex in Hany. discriminate.
Qed.

(** After a [purgeWallet] that resolves, no wallet with the given key is on
    the card, and every wallet with another key still is. *)
Lemma purgeWallet_removes_key card walletPublicKey cardId initialMessage :
  forall r,
    fst (purgeWallet card walletPublicKey cardId initialMessage) = Resolved r ->
    forall w,
      In w (card_wallets
              (snd (purgeWallet card walletPublicKey cardId initialMessage)))
      <-> In w (card_wallets card) /\ has_key walletPublicKey w = false.
Proof.
  intros r. unfold purgeWallet.
  destruct (filter (has_key walletPublicKey) (card_wallets card)) as [| t ts];
    [ discriminate | ].
  destruct (existsb is_permanent (t :: ts)); [ discriminate | ].
  cbn [fst snd]. intros _ w.
  rewrite card_wallets_set_wallets, filter_In, negb_true_iff. reflexivity.
Qed.

(** C5: on every card that the card session client reports, that is on every
    card that [createWallet] and [purgeWallet] commands produce from a card
    without wallets, each wallet present has its curve among the card's
    [supportedCurves]. *)
Theorem produced_card_curves_supported :
  forall generateKey card,
    produced generateKey card -> wallet_curves_supported card.
Proof.
  intros generateKey card Hprod.
  induction Hprod as [card Hblank | card card' _ IH Hstep].
  - intros w Hw. rewrite Hblank in Hw. contradiction.
  - destruct Hstep.
    + now apply createWallet_keeps_curves_supported.
    + now apply purgeWallet_keeps_curves_supported.
Qed.

(** The blank sample card after two [createWallet] commands, the second
    for a permanent wallet, and a [purgeWallet]: the generated keys are the
    same, the purge is refused and both wallets stay. *)
Lemma produced_card_curves_supported_witness :
  let cid := "CB79000000018201" in
  let one :=
    snd (createWallet sample_generateKey blank_card EllipticCurve.Secp256k1
           false cid None) in
  let two :=
    snd (createWallet sample_generateKey one EllipticCurve.Secp256k1
           true cid None) in
  let card := snd (purgeWallet two "02C7" cid None) in
  map is_permanent (card_wallets card) = [false; true] /\
  wallet_curves_supported card.
Proof.
  split; [ reflexivity | ].
  apply (produced_card_curves_supported sample_generateKey).
  apply produced_step
    with (card := snd (createWallet sample_generateKey
                         (snd (createWallet sample_generateKey blank_card
                                 EllipticCurve.Secp256k1 false
                                 "CB79000000018201" None))
                         EllipticCurve.Secp256k1 true "CB79000000018201" None));
    [ | apply step_purgeWallet ].
  apply produced_step
    with (card := snd (createWallet sample_generateKey blank_card
                         EllipticCurve.Secp256k1 false "CB79000000018201" None));
    [ | apply step_createWallet ].
  apply produced_step with (card := blank_card); [ | apply step_createWallet ].
  apply produced_blank. reflexivity.
Defined.

(** *** Reading files *)

Lemma files_at_In (store : list StoredFile) (indices : list Z) :
  forall fs, files_at store indices = Some fs ->
             forall f, In f fs -> In f store.
Proof.
  induction indices as [| i rest IH]; simpl; intros fs Hfs f Hf.
  - injection Hfs as <-. contradiction.
  - destruct (i <? 0)%Z; [ discriminate | ].
    destruct (nth_error store (Z.to_nat i)) as [g | ] eqn:Hnth; [ | discriminate ].
    destruct (files_at store rest) as [gs | ]; [ | discriminate ].
    injection Hfs as <-. destruct Hf as [<- | Hf].
    + eapply nth_error_In; eassumption.
    + now apply (IH gs).
Qed.

Lemma addressed_In (store : list StoredFile) (indices : option (list Z)) :
  forall fs, addressed store indices = Some fs ->
             forall f, In f fs -> In f store.
Proof.
  destruct indices as [l | ]; simpl; intros fs Hfs f Hf.
  - eapply files_at_In; eassumption.
  - injection Hfs as <-. exact Hf.
Qed.

(** C8: when [readFiles] is called with [readPrivateFiles = false], the
    returned [files] are the contents of files of the card that are not
    Private; and without an index list the call does return. *)
Theorem readFiles_excludes_private :
  forall store indices cardId initialMessage,
    (forall r,
       readFiles store false indices cardId initialMessage = Resolved r ->
       exists fs,
         ReadFilesResponse.files r = map content fs /\
         Forall (fun f => In f store /\ visibility f <> FileSettings.Private) fs) /\
    (indices = None ->
     exists r, readFiles store false indices cardId initialMessage = Resolved r).
Proof.
  intros store indices cardId initialMessage. unfold readFiles. split.
  - intros r Hr.
    destruct (addressed store indices) as [fs | ] eqn:Haddr; [ | discriminate ].
    injection Hr as <-. simpl.
    exists (filter (readable false) fs). split; [ reflexivity | ].
    apply Forall_forall. intros f Hf.
    apply filter_In in Hf. destruct Hf as [Hin Hread].
    split.
    + eapply addressed_In; eassumption.
    + unfold readable in Hread. simpl in Hread.
      intros Hpriv. rewrite Hpriv in Hread. discriminate.
  - intros ->. simpl. eexists. reflexivity.
Qed.

(** Reading both files of the sample store returns the public one only. *)
Lemma readFiles_excludes_private_witness :
  (exists r,
     readFiles sample_store false (Some [1%Z; 0%Z]) None None = Resolved r /\
     ReadFilesResponse.files r = [sample_file "BB"] /\
     exists fs,
       ReadFilesResponse.files r = map content fs /\
       Forall (fun f => In f sample_store /\ visibility f <> FileSettings.Private)
              fs) /\
  (exists r, readFiles sample_store false None None None = Resolved r).
Proof.
  split.
  - eexists. split; [ reflexivity | ]. split; [ reflexivity | ].
    apply (proj1 (readFiles_excludes_private sample_store (Some [1%Z; 0%Z])
                    None None)).
    reflexivity.
  - apply (proj2 (readFiles_excludes_private sample_store None None None)).
    reflexivity.
Defined.

(** ** Properties of the file as a whole *)

Lemma mem_In (n : string) (l : list string) : mem n l = true <-> In n l.
Proof.
  unfold mem. rewrite existsb_exists. split.
  - intros [x [Hin Heq]]. apply String.eqb_eq in Heq. now subst.
  - intros Hin. exists n. split; [ exact Hin | apply String.eqb_refl ].
Qed.

Lemma distinct_NoDup (l : list string) : distinct l = true -> NoDup l.
Proof.
  induction l as [| n rest IH]; simpl; intros H; [ constructor | ].
  apply andb_true_iff in H. destruct H as [Hn Hrest].
  constructor; [ | now apply IH ].
  intros Hin. apply mem_In in Hin. rewrite Hin in Hn. discriminate.
Qed.

(** In a list whose keys are pairwise different, looking up the key of an
    element finds that element. *)
Lemma find_by_key {A : Type} (key : A -> string) (l : list A) :
  NoDup (map key l) ->
  forall x, In x l -> find (fun y => String.eqb (key y) (key x)) l = Some x.
Proof.
  induction l as [| a rest IH]; simpl; intros Hnd x Hx; [ contradiction | ].
  inversion Hnd as [| k ks Hfresh Hrest]; subst.
  destruct Hx as [-> | Hx].
  - now rewrite String.eqb_refl.
  - destruct (String.eqb (key a) (key x)) eqn:Heq.
    + apply String.eqb_eq in Heq. exfalso. apply Hfresh.
      rewrite Heq. now apply in_map.
    + now apply IH.
Qed.

Lemma declared_names_distinct : NoDup (map decl_name types_ts).
Proof. apply distinct_NoDup. vm_compute. reflexivity. Qed.

Lemma TangemSdk_declared : In TangemSdk types_ts.
Proof.
  unfold types_ts. apply in_or_app. right. apply in_or_app. right.
  apply in_or_app. right. left. reflexivity.
Qed.

(** X1: every declaration of the file is found under its own name; no
    declaration is hidden by another one of the same name. *)
Theorem declaration_found_by_name :
  forall d, In d types_ts -> find_decl (decl_name d) = Some d.
Proof.
  intros d Hd. unfold find_decl.
  now apply (find_by_key decl_name types_ts declared_names_distinct).
Qed.

Lemma declaration_found_by_name_witness :
  In TangemSdk types_ts /\ find_decl "TangemSdk" = Some TangemSdk.
Proof.
  split; [ exact TangemSdk_declared | ].
  exact (declaration_found_by_name TangemSdk TangemSdk_declared).
Defined.

(** X2: every type name written in a declaration of the file is declared
    in the file, or is one of the global types [String], [Number],
    [Boolean], [Date] and [Promise], which the file does not declare. *)
Theorem type_name_is_declared_or_global :
  forall d n,
    In d types_ts ->
    In n (decl_type_names d) ->
    (exists d', In d' types_ts /\ decl_name d' = n /\ find_decl n = Some d') \/
    (In n global_types /\ find_decl n = None).
Proof.
  intros d n Hd Hn.
  assert (Hall : forallb names_accounted types_ts = true)
    by (vm_compute; reflexivity).
  pose proof (proj1 (forallb_forall names_accounted types_ts) Hall d Hd) as Hnames.
  clear Hall. unfold names_accounted in Hnames.
  pose proof (proj1 (forallb_forall declared_or_global (decl_type_names d))
                Hnames n Hn) as Hname.
  clear Hnames. unfold declared_or_global in Hname.
  destruct (find_decl n) as [d' | ] eqn:Hfind.
  - left. exists d'. unfold find_decl in Hfind. apply find_some in Hfind.
    destruct Hfind as [Hin Heq]. apply String.eqb_eq in Heq.
    split; [ exact Hin | ]. split; [ exact Heq | reflexivity ].
  - right. split; [ now apply mem_In | reflexivity ].
Qed.

(** [scanCard] returns [Promise<Card>]: [Card] is declared in the file and
    [Promise] is global. *)
Lemma type_name_is_declared_or_global_witness :
  (exists d', In d' types_ts /\ decl_name d' = "Card" /\ find_decl "Card" = Some d') /\
  (In "Promise" global_types /\ find_decl "Promise" = None).
Proof.
  split.
  - destruct (type_name_is_declared_or_global TangemSdk "Card" TangemSdk_declared)
      as [Hdeclared | [_ Hnone]].
    + simpl. do 2 right. left. reflexivity.
    + exact Hdeclared.
    + discriminate Hnone.
  - destruct (type_name_is_declared_or_global TangemSdk "Promise"
                TangemSdk_declared) as [[d' [_ [_ Hsome]]] | Hglobal].
    + simpl. right. left. reflexivity.
    + discriminate Hsome.
    + exact Hglobal.
Defined.

(** X3: in every member list of the file (the members of an interface or
    object type, the parameters of a method or handler) a member is found
    under its own name; no two members of a list share a name. *)
Theorem member_found_by_name :
  forall d ms m,
    In d types_ts ->
    In ms (decl_member_lists d) ->
    In m ms ->
    find_member (mname m) ms = Some m.
Proof.
  intros d ms m Hd Hms Hm.
  assert (Hall : forallb (fun d0 => forallb (fun ms0 =>
                   distinct (map (fun m0 => mname m0) ms0))
                   (decl_member_lists d0)) types_ts = true)
    by (vm_compute; reflexivity).
  rewrite forallb_forall in Hall. specialize (Hall d Hd).
  rewrite forallb_forall in Hall. specialize (Hall ms Hms).
  apply distinct_NoDup in Hall.
  unfold find_member.
  now apply (find_by_key (fun m0 => mname m0) ms Hall).
Qed.

Lemma member_found_by_name_witness :
  find_member "cardId"
    [ req "cardId" TString; req "wallet" (TRef "Wallet") ]
  = Some (req "cardId" TString).
Proof.
  apply (member_found_by_name
           (Interface "CreateWalletResponse"
              [ req "cardId" TString; req "wallet" (TRef "Wallet") ])
           [ req "cardId" TString; req "wallet" (TRef "Wallet") ]
           (req "cardId" TString)).
  - unfold types_ts. apply in_or_app. right. apply in_or_app. right.
    apply in_or_app. left. simpl. tauto.
  - simpl. left. reflexivity.
  - simpl. left. reflexivity.
Defined.

(** *** What the operations reach *)

Lemma dedupe_In (n : string) (l : list string) : In n (dedupe l) <-> In n l.
Proof.
  induction l as [| a rest IH]; simpl; [ tauto | ].
  destruct (mem a rest) eqn:Ha; simpl; rewrite IH; [ | tauto ].
  apply mem_In in Ha. split; [ tauto | ].
  intros [<- | H]; assumption.
Qed.

Lemma expand_In (seen : list string) (m : string) :
  In m (expand seen) <-> In m seen \/ exists s, In s seen /\ refers s m.
Proof.
  unfold expand, refers. rewrite dedupe_In, in_app_iff, in_flat_map. tauto.
Qed.

Lemma rounds_keep (k : nat) (start : list string) (s : string) :
  In s start -> In s (Nat.iter k expand start).
Proof.
  intros Hs. induction k as [| k IH]; simpl; [ exact Hs | ].
  apply expand_In. now left.
Qed.

(** Whatever the rounds collect is reached from a starting name. *)
Lemma rounds_sound (k : nat) (start : list string) (m : string) :
  In m (Nat.iter k expand start) ->
  exists s, In s start /\ clos_refl_trans string refers s m.
Proof.
  revert m. induction k as [| k IH]; simpl; intros m Hm.
  - exists m. split; [ exact Hm | apply rt_refl ].
  - apply expand_In in Hm. destruct Hm as [Hm | [a [Ha Ham]]].
    + now apply IH.
    + destruct (IH a Ha) as [s [Hs Hsa]]. exists s. split; [ exact Hs | ].
      apply rt_trans with (y := a); [ exact Hsa | now apply rt_step ].
Qed.

(** A closed set of names holds everything reached from its members. *)
Lemma closed_reaches (c : list string) :
  closed c = true ->
  forall a b, clos_refl_trans string refers a b -> In a c -> In b c.
Proof.
  intros Hc a b Hab. unfold closed in Hc. rewrite forallb_forall in Hc.
  induction Hab as [a b Hstep | a | a b d _ IHab _ IHbd]; intros Ha.
  - specialize (Hc a Ha). rewrite forallb_forall in Hc.
    apply mem_In. now apply Hc.
  - exact Ha.
  - auto.
Qed.

Lemma closure_keeps (start : list string) (s : string) :
  In s start -> In s (closure start).
Proof. unfold closure. apply rounds_keep. Qed.

Lemma closure_sound (start : list string) (m : string) :
  In m (closure start) ->
  exists s, In s start /\ clos_refl_trans string refers s m.
Proof. unfold closure. apply rounds_sound. Qed.

(** X4: the operations of [TangemSdk] reach, through their parameters and
    results and the members of those, every declaration of the file except
    [WalletConfig] and [FileValidation], which no operation carries at any
    depth. *)
Theorem operations_reach_all_but_two :
  forall d,
    In d types_ts ->
    (clos_refl_trans string refers "TangemSdk" (decl_name d)
     <-> ~ In (decl_name d) unused_types).
Proof.
  intros d Hd.
  assert (Hclosed : closed (closure ["TangemSdk"]) = true)
    by (vm_compute; reflexivity).
  assert (Hall : forallb (fun d0 =>
                   Bool.eqb (mem (decl_name d0) (closure ["TangemSdk"]))
                            (negb (mem (decl_name d0) unused_types)))
                   types_ts = true)
    by (vm_compute; reflexivity).
  pose proof (closure_keeps ["TangemSdk"] "TangemSdk" (or_introl eq_refl))
    as Hroot.
  assert (Hsound : forall m, In m (closure ["TangemSdk"]) ->
                             clos_refl_trans string refers "TangemSdk" m).
  { intros m Hm. apply closure_sound in Hm.
    destruct Hm as [s [[<- | []] Hs]]. exact Hs. }
  revert Hclosed Hall Hroot Hsound. generalize (closure ["TangemSdk"]).
  intros c Hclosed Hall Hroot Hsound.
  rewrite forallb_forall in Hall. specialize (Hall d Hd).
  apply Bool.eqb_prop in Hall.
  split.
  - intros Hreach Hunused.
    apply mem_In in Hunused. rewrite Hunused in Hall.
    assert (Hin : In (decl_name d) c)
      by exact (closed_reaches c Hclosed "TangemSdk" _ Hreach Hroot).
    apply mem_In in Hin. rewrite Hin in Hall. discriminate Hall.
  - intros Hused.
    destruct (mem (decl_name d) unused_types) eqn:Hmem.
    + apply mem_In in Hmem. contradiction.
    + apply Hsound. apply mem_In. exact Hall.
Qed.

Lemma operations_reach_all_but_two_witness :
  clos_refl_trans string refers "TangemSdk" "SigningMethod" /\
  ~ clos_refl_trans string refers "TangemSdk" "WalletConfig".
Proof.
  split.
  - apply (proj2 (operations_reach_all_but_two
                    (Enum "SigningMethod"
                       [ ("SignHash", Some "SignHash");
                         ("SignRaw", Some "SignRaw");
                         ("SignHashSignedByIssuer", Some "SignHashSignedByIssuer");
                         ("SignRawSignedByIssuer", Some "SignRawSignedByIssuer");
                         ("SignHashSignedByIssuerAndUpdateIssuerData",
                          Some "SignHashSignedByIssuerAndUpdateIssuerData");
                         ("SignRawSignedByIssuerAndUpdateIssuerData",
                          Some "SignRawSignedByIssuerAndUpdateIssuerData");
                         ("SignPos", Some "SignPos") ])
                    ltac:(unfold types_ts; apply in_or_app; left;
                          right; left; reflexivity))).
    intros [H | [H | []]]; discriminate H.
  - intros Hreach.
    apply (proj1 (operations_reach_all_but_two
                    (Interface "WalletConfig"
                       [ opt "isReusable" TBoolean;
                         opt "prohibitPurgeWallet" TBoolean;
                         opt "EllipticCurve" (TRef "EllipticCurve");
                         opt "signingMethods" (TRef "SigningMethod") ])
                    ltac:(unfold types_ts; apply in_or_app; right;
                          apply in_or_app; right; apply in_or_app; left;
                          do 9 right; left; reflexivity)) Hreach).
    left. reflexivity.
Defined.

(** X5: no declaration of the file refers to itself, directly or through
    other declarations, so a value of a declared type never contains a value
    of the same type. *)
Theorem no_declaration_contains_itself :
  forall n, ~ clos_trans string refers n n.
Proof.
  intros n Hloop.
  assert (Hnext : exists m, refers n m /\ clos_refl_trans string refers m n).
  { apply clos_trans_t1n in Hloop.
    inversion Hloop as [m Hstep | m y Hstep Hrest]; subst.
    - exists n. split; [ exact Hstep | apply rt_refl ].
    - exists m. split; [ exact Hstep | ].
      apply clos_t1n_trans in Hrest. now apply clos_t_clos_rt. }
  destruct Hnext as [m [Hnm Hmn]].
  assert (Hd : exists d, In d types_ts /\ decl_name d = n).
  { unfold refers, refs_of in Hnm.
    destruct (find_decl n) as [d | ] eqn:Hfind; [ | contradiction ].
    unfold find_decl in Hfind. apply find_some in Hfind.
    destruct Hfind as [Hd Heq]. apply String.eqb_eq in Heq. now exists d. }
  destruct Hd as [d [Hd <-]].
  pose (loop_free := fun d0 =>
          closed (closure (refs_of (decl_name d0)))
          && negb (mem (decl_name d0) (closure (refs_of (decl_name d0))))).
  assert (Hall : forallb loop_free types_ts = true)
    by (vm_compute; reflexivity).
  pose proof (proj1 (forallb_forall loop_free types_ts) Hall d Hd) as Hfree.
  unfold loop_free in Hfree. clear Hall loop_free.
  pose proof (closure_keeps (refs_of (decl_name d)) m Hnm) as Hm.
  revert Hfree Hm. generalize (closure (refs_of (decl_name d))).
  intros c Hfree Hm.
  apply andb_true_iff in Hfree. destruct Hfree as [Hclosed Hout].
  pose proof (closed_reaches c Hclosed m (decl_name d) Hmn Hm) as Hin.
  apply mem_In in Hin. rewrite Hin in Hout. discriminate Hout.
Qed.

(** A [Card] does not contain a [Card]. *)
Lemma no_declaration_contains_itself_witness :
  ~ clos_trans string refers "Card" "Card".
Proof. exact (no_declaration_contains_itself "Card"). Defined.

(** *** Enumerations *)

Lemma enum_value_eqb_eq (a b : enum_value) :
  enum_value_eqb a b = true <-> a = b.
Proof.
  destruct a as [s | n], b as [s' | n']; simpl.
  - rewrite String.eqb_eq. split; congruence.
  - split; discriminate.
  - split; discriminate.
  - rewrite Nat.eqb_eq. split; congruence.
Qed.

Lemma distinct_values_NoDup (l : list enum_value) :
  distinct_values l = true -> NoDup l.
Proof.
  induction l as [| v rest IH]; simpl; intros H; [ constructor | ].
  apply andb_true_iff in H. destruct H as [Hv Hrest].
  constructor; [ | now apply IH ].
  intros Hin. apply negb_true_iff in Hv.
  assert (Hex : existsb (enum_value_eqb v) rest = true).
  { apply existsb_exists. exists v. split; [ exact Hin | ].
    now apply enum_value_eqb_eq. }
  rewrite Hex in Hv. discriminate.
Qed.

(** When the second components of a list of pairs are pairwise different,
    a second component belongs to one first component only. *)
Lemma value_has_one_key {A B : Type} (l : list (A * B)) :
  NoDup (map snd l) ->
  forall a a' b, In (a, b) l -> In (a', b) l -> a = a'.
Proof.
  induction l as [| [x y] rest IH]; simpl; intros Hnd a a' b Ha Ha';
    [ contradiction | ].
  inversion Hnd as [| k ks Hfresh Hrest]; subst.
  destruct Ha as [Ha | Ha], Ha' as [Ha' | Ha'].
  - congruence.
  - injection Ha as <- <-. exfalso. apply Hfresh.
    apply (in_map snd) in Ha'. exact Ha'.
  - injection Ha' as <- <-. exfalso. apply Hfresh.
    apply (in_map snd) in Ha. exact Ha.
  - eapply IH; eassumption.
Qed.

(** X6: in every enumeration of the file, two cases never have the same
    run-time value: a value read from a card names one case of the
    enumeration it belongs to. *)
Theorem enum_value_names_one_case :
  forall n cases c c' v,
    In (Enum n cases) types_ts ->
    In (c, v) (valued_cases cases) ->
    In (c', v) (valued_cases cases) ->
    c = c'.
Proof.
  intros n cases c c' v Hd Hc Hc'.
  assert (Hall : forallb enum_cases_distinct types_ts = true)
    by (vm_compute; reflexivity).
  pose proof (proj1 (forallb_forall enum_cases_distinct types_ts) Hall
                (Enum n cases) Hd) as Hcases.
  clear Hall. unfold enum_cases_distinct in Hcases.
  apply andb_true_iff in Hcases. destruct Hcases as [_ Hvalues].
  apply distinct_values_NoDup in Hvalues.
  exact (value_has_one_key (valued_cases cases) Hvalues c c' v Hc Hc').
Qed.

Lemma enum_value_names_one_case_witness :
  In ("Private", NumberValue 0)
     (valued_cases [ ("Private", None); ("Public", None) ]) /\
  "Private" = "Private".
Proof.
  assert (Hin : In ("Private", NumberValue 0)
                   (valued_cases [ ("Private", None); ("Public", None) ]))
    by (left; reflexivity).
  split; [ exact Hin | ].
  apply (enum_value_names_one_case "FileSettings"
           [ ("Private", None); ("Public", None) ]
           "Private" "Private" (NumberValue 0)).
  - unfold types_ts. apply in_or_app. left. do 4 right. left. reflexivity.
  - exact Hin.
  - exact Hin.
Defined.

(** *** Calling the operations *)

Lemma all_optional_skipn (ps : list (member ty)) (k : nat) :
  forallb (fun q => moptional q) ps = true ->
  Forall (fun p => moptional p = true) (skipn k ps).
Proof.
  intros H. apply Forall_forall. intros p Hp.
  rewrite forallb_forall in H. apply H.
  rewrite <- (firstn_skipn k ps). apply in_or_app. now right.
Qed.

Lemma all_optional_none_required (ps : list (member ty)) :
  forallb (fun q => moptional q) ps = true -> required_count ps = 0.
Proof.
  unfold required_count.
  induction ps as [| p rest IH]; simpl; intros H; [ reflexivity | ].
  apply andb_true_iff in H. destruct H as [Hp Hrest].
  rewrite Hp. simpl. now apply IH.
Qed.

(** When the required parameters come first, a call that supplies the first
    [k] parameters omits optional ones only exactly when [k] is at least
    the number of required parameters. *)
Lemma required_first_skipn (ps : list (member ty)) :
  required_first ps = true ->
  forall k,
    Forall (fun p => moptional p = true) (skipn k ps)
    <-> required_count ps <= k.
Proof.
  induction ps as [| p rest IH]; intros Hfirst k.
  - destruct k; simpl;
      (split; [ intros _; unfold required_count; simpl; lia
              | intros _; constructor ]).
  - simpl in Hfirst. destruct (moptional p) eqn:Hp.
    + assert (Hall : forallb (fun q => moptional q) (p :: rest) = true)
        by (simpl; now rewrite Hp).
      rewrite (all_optional_none_required _ Hall).
      split; [ lia | intros _; now apply all_optional_skipn ].
    + unfold required_count. simpl. rewrite Hp. simpl.
      fold (required_count rest).
      destruct k as [| k]; simpl.
      * split; [ | lia ].
        intros H. inversion H as [| q qs Hq _]; subst. congruence.
      * rewrite (IH Hfirst k). lia.
Qed.

(** X7: in every operation the required parameters come first, so a call
    that supplies the first [k] arguments leaves out optional parameters
    only if and only if [k] is at least the number of required ones. *)
Theorem call_omits_only_optionals :
  forall op k,
    In op operations ->
    (Forall (fun p => moptional p = true) (skipn k (op_params op))
     <-> required_count (op_params op) <= k).
Proof.
  intros op k Hop. apply required_first_skipn.
  apply (for_each_operation (fun o => required_first (op_params o)));
    [ reflexivity | exact Hop ].
Qed.

Lemma call_omits_only_optionals_witness :
  exists op,
    operation "writeIssuerData" = Some op /\
    required_count (op_params op) = 2 /\
    Forall (fun p => moptional p = true) (skipn 2 (op_params op)) /\
    ~ Forall (fun p => moptional p = true) (skipn 1 (op_params op)).
Proof.
  exists (method "writeIssuerData"
            [ req "issuerData" (TRef "Data");
              req "issuerDataSignature" (TRef "Data");
              opt "issuerDataCounter" TNumber;
              opt "cardId" TString;
              opt "initialMessage" (TRef "Message") ]
            (TPromise (TRef "WriteIssuerDataResponse"))).
  split; [ reflexivity | ]. split; [ reflexivity | ].
  split.
  - apply call_omits_only_optionals.
    + apply (proj1 (operation_In "writeIssuerData" _ eq_refl)).
    + unfold required_count. simpl. lia.
  - intros H. apply call_omits_only_optionals in H.
    + unfold required_count in H. simpl in H. lia.
    + apply (proj1 (operation_In "writeIssuerData" _ eq_refl)).
Defined.

Ltac give_front :=
  match goal with
  | |- exists front, ?l = (front ++ _)%list =>
      exists (removelast l); reflexivity
  end.

(** X8: [initialMessage] is never a required parameter: an operation either
    has no such parameter ([startSession], [stopSession], [getNFCStatus],
    [on], [removeListener]) or declares it last, optional and of type
    [Message]. *)
Theorem initialMessage_last_and_optional :
  forall op,
    In op operations ->
    if name_in message_absent op
    then param_presence "initialMessage" op = Absent
    else exists front, op_params op = (front ++ [initialMessage_param])%list.
Proof.
  intros op Hop. each_operation Hop; cbn; first [ reflexivity | give_front ].
Qed.

Lemma initialMessage_last_and_optional_witness :
  exists op,
    operation "purgeWallet" = Some op /\
    exists front, op_params op = (front ++ [initialMessage_param])%list.
Proof.
  exists (method "purgeWallet"
            [ req "walletPublicKey" (TRef "Data");
              req "cardId" TString;
              opt "initialMessage" (TRef "Message") ]
            (TPromise (TRef "SuccessResponse"))).
  split; [ reflexivity | ].
  apply (initialMessage_last_and_optional
           (method "purgeWallet"
              [ req "walletPublicKey" (TRef "Data");
                req "cardId" TString;
                opt "initialMessage" (TRef "Message") ]
              (TPromise (TRef "SuccessResponse")))).
  apply (proj1 (operation_In "purgeWallet" _ eq_refl)).
Defined.

Ltac give_front_and_cardId k :=
  match goal with
  | |- exists front c, @?P front c /\ ?l = @?R front c =>
      exists (firstn k l), (nth k l initialMessage_param); split; reflexivity
  end.

(** X9: an operation that declares a [cardId] parameter declares it directly
    before [initialMessage]; only in [sign] the optional [hdPath] stands
    between the two.  No operation takes a [cardId] without also accepting
    a message. *)
Theorem cardId_before_initialMessage :
  forall op,
    In op operations ->
    param_presence "cardId" op <> Absent ->
    exists front c,
      mname c = "cardId" /\
      op_params op
      = (front ++ c
           :: (if String.eqb (mname op) "sign"
               then [ opt "hdPath" (TRef "DerivationPath") ]
               else [])
           ++ [ initialMessage_param ])%list.
Proof.
  intros op Hop. each_operation Hop; cbn; intros Hpresent;
    first [ exfalso; apply Hpresent; reflexivity
          | give_front_and_cardId 0%nat
          | give_front_and_cardId 1%nat
          | give_front_and_cardId 2%nat
          | give_front_and_cardId 3%nat
          | give_front_and_cardId 4%nat ].
Qed.

Lemma cardId_before_initialMessage_witness :
  exists op,
    operation "sign" = Some op /\
    exists front c,
      mname c = "cardId" /\
      op_params op
      = (front ++ c :: [ opt "hdPath" (TRef "DerivationPath") ]
           ++ [ initialMessage_param ])%list.
Proof.
  exists (method "sign"
            [ req "hashes" (TArray (TRef "Data"));
              req "walletPublicKey" (TRef "Data");
              req "cardId" TString;
              opt "hdPath" (TRef "DerivationPath");
              opt "initialMessage" (TRef "Message") ]
            (TPromise (TTuple [TRef "Data"]))).
  split; [ reflexivity | ].
  apply (cardId_before_initialMessage
           (method "sign"
              [ req "hashes" (TArray (TRef "Data"));
                req "walletPublicKey" (TRef "Data");
                req "cardId" TString;
                opt "hdPath" (TRef "DerivationPath");
                opt "initialMessage" (TRef "Message") ]
              (TPromise (TTuple [TRef "Data"])))).
  - apply (proj1 (operation_In "sign" _ eq_refl)).
  - cbn. discriminate.
Defined.

(** X10: every operation other than [on] and [removeListener] returns a
    promise; those two return nothing and take the same two parameters, the
    event name and the handler, so a handler is removed with the arguments
    it was added with. *)
Theorem operations_async_except_listeners :
  forall op,
    In op operations ->
    if name_in listeners op
    then op_result op = TVoid /\
         op_params op = [ req "eventName" (TRef "Events"); req "handler" handler ]
    else is_async op = true.
Proof.
  intros op Hop. each_operation Hop; cbn; first [ reflexivity | split; reflexivity ].
Qed.

Lemma operations_async_except_listeners_witness :
  exists op,
    operation "removeListener" = Some op /\
    op_result op = TVoid /\
    op_params op = [ req "eventName" (TRef "Events"); req "handler" handler ].
Proof.
  exists (method "removeListener"
            [ req "eventName" (TRef "Events"); req "handler" handler ] TVoid).
  split; [ reflexivity | ].
  apply (operations_async_except_listeners
           (method "removeListener"
              [ req "eventName" (TRef "Events"); req "handler" handler ] TVoid)).
  apply (proj1 (operation_In "removeListener" _ eq_refl)).
Defined.

(** *** From a response to the next call *)

(** X11: a member of the response of any operation can be passed, as far as
    its type goes, to the parameter of the same name of any operation: the
    types are the same or the parameter has the wrapper type.  The one
    exception is [userProtectedCounter], which the responses declare as a
    number and [writeUserProtectedData] takes as [Data]. *)
Theorem response_member_passes_to_parameter :
  forall op1 op2 ms m p,
    In op1 operations ->
    In op2 operations ->
    members_of (response op1) = Some ms ->
    In m ms ->
    In p (op_params op2) ->
    mname m = mname p ->
    assignable (mtype m) (mtype p)
    = negb (String.eqb (mname m) "userProtectedCounter").
Proof.
  intros op1 op2 ms m p Hop1 Hop2 Hms Hm Hp Hname.
  assert (Hms' : response_members op1 = ms)
    by (unfold response_members; rewrite Hms; reflexivity).
  apply String.eqb_eq in Hname.
  assert (Hall : forallb responses_pass_on operations = true)
    by (vm_compute; reflexivity).
  pose proof (proj1 (forallb_forall responses_pass_on operations) Hall op1 Hop1)
    as H1.
  clear Hall. unfold responses_pass_on in H1.
  pose proof (proj1 (forallb_forall _ operations) H1 op2 Hop2) as H2.
  clear H1. cbv beta in H2. rewrite Hms' in H2.
  pose proof (proj1 (forallb_forall _ ms) H2 m Hm) as H3.
  clear H2. cbv beta in H3.
  pose proof (proj1 (forallb_forall _ (op_params op2)) H3 p Hp) as H4.
  clear H3. unfold passes_on in H4. rewrite Hname in H4.
  apply Bool.eqb_prop in H4. exact H4.
Qed.

Lemma response_member_passes_to_parameter_witness :
  assignable TString TStringObject = true /\
  assignable TNumber (TRef "Data") = false.
Proof.
  split.
  - apply (response_member_passes_to_parameter
             (method "createWallet"
                [ req "curve" (TRef "EllipticCurve");
                  req "isPermanent" TBoolean;
                  req "cardId" TString;
                  opt "initialMessage" (TRef "Message") ]
                (TPromise (TRef "CreateWalletResponse")))
             (method "changeFilesSettings"
                [ req "changes" (TRef "FileSettingsChange");
                  opt "cardId" TStringObject;
                  opt "initialMessage" (TRef "Message") ]
                (TPromise (TRef "ChangeFilesSettingsResponse")))
             [ req "cardId" TString; req "wallet" (TRef "Wallet") ]
             (req "cardId" TString)
             (opt "cardId" TStringObject)).
    + apply (proj1 (operation_In "createWallet" _ eq_refl)).
    + apply (proj1 (operation_In "changeFilesSettings" _ eq_refl)).
    + reflexivity.
    + left. reflexivity.
    + right. left. reflexivity.
    + reflexivity.
  - apply (response_member_passes_to_parameter
             (method "readUserData"
                [ opt "cardId" TString; opt "initialMessage" (TRef "Message") ]
                (TPromise (TRef "ReadUserDataResponse")))
             (method "writeUserProtectedData"
                [ req "userProtectedData" (TRef "Data");
                  req "userProtectedCounter" (TRef "Data");
                  opt "cardId" TString;
                  opt "initialMessage" (TRef "Message") ]
                (TPromise (TRef "WriteUserProtectedDataResponse")))
             [ req "cardId" TString;
               req "userData" (TRef "Data");
               req "userProtectedData" (TRef "Data");
               req "userCounter" TNumber;
               req "userProtectedCounter" TNumber ]
             (req "userProtectedCounter" TNumber)
             (req "userProtectedCounter" (TRef "Data"))).
    + apply (proj1 (operation_In "readUserData" _ eq_refl)).
    + apply (proj1 (operation_In "writeUserProtectedData" _ eq_refl)).
    + reflexivity.
    + do 4 right. left. reflexivity.
    + right. left. reflexivity.
    + reflexivity.
Defined.
